(** * Consensus parameters of namecoin-core: [src/consensus/params.h]

    A shallow embedding of the header's rule classes ([ConsensusRules],
    [MainNetConsensus], [TestNetConsensus], [RegTestConsensus]) and of
    [Consensus::Params] with its three inline queries, followed by the
    properties the specification states about them.

    Conventions.
    - C++ fixed-width integers are values of [Z]; the range of each type is
      a predicate ([is_unsigned], [is_int], [is_int64]) and every place the
      source can wrap has the wrap written out ([wrap_unsigned], [to_int]).
    - Undefined behaviour (integer division by zero or its single
      overflowing case) is [None]; a call through an unimplemented pure
      virtual method is [None] as well. *)

From Stdlib Require Import ZArith Lia Bool List.
Import ListNotations.

Local Open Scope Z_scope.

(* ================================================================== *)
(** ** Machine integers *)

Module CInt.

(** [unsigned]: 32 bits. *)
Definition UINT_MODULUS : Z := 2 ^ 32.
Definition is_unsigned (z : Z) : Prop := 0 <= z < UINT_MODULUS.

(** [int] and [int32_t]: 32 bits, two's complement. *)
Definition INT_MIN : Z := - 2 ^ 31.
Definition INT_MAX : Z := 2 ^ 31 - 1.
Definition is_int (z : Z) : Prop := INT_MIN <= z <= INT_MAX.

(** [int64_t]; [CAmount] is an alias of it. *)
Definition INT64_MIN : Z := - 2 ^ 63.
Definition INT64_MAX : Z := 2 ^ 63 - 1.
Definition is_int64 (z : Z) : Prop := INT64_MIN <= z <= INT64_MAX.

(** Result of an arithmetic expression of type [unsigned]. *)
Definition wrap_unsigned (z : Z) : Z := z mod UINT_MODULUS.

(** [static_cast<int> (u)] for [u] of type [unsigned]: the value
    congruent to [u] modulo 2^32 that lies in the range of [int]. *)
Definition to_int (u : Z) : Z := (u + 2 ^ 31) mod UINT_MODULUS - 2 ^ 31.

(** [a / b] on [int64_t]: truncation towards zero; undefined when the
    divisor is zero or the quotient is not representable. *)
Definition div_int64 (a b : Z) : option Z :=
  if b =? 0 then None
  else if (a =? INT64_MIN) && (b =? -1) then None
  else Some (Z.quot a b).

End CInt.
Import CInt.

(* ================================================================== *)
(** ** [amount.h] *)

(** The header [amount.h] is included by [params.h] but is not part of the
    sources at hand; the one constant used from it, [COIN] (the number of
    base units in one coin, of type [CAmount]), is taken as a parameter. *)
Class amount_h : Type := { COIN : Z }.

(* ================================================================== *)
(** ** The rule classes *)

(** What a class body declares for each of the two virtual methods of the
    interface: [None] when the body has no definition for the method (a pure
    virtual declaration in the interface, or nothing at all in a derived
    class). *)
Record Methods : Type := {
  decl_NameExpirationDepth : option (Z -> Z);
  decl_MinNameCoinAmount : option (Z -> Z)
}.

(** A class of the hierarchy: the interface itself, or a class derived
    publicly from one base. *)
Inductive CxxClass : Type :=
| Root (body : Methods)
| Derived (base : CxxClass) (body : Methods).

(** Final overrider of a virtual method: the definition of the most derived
    class that has one. *)
Fixpoint final_overrider (slot : Methods -> option (Z -> Z)) (c : CxxClass)
  : option (Z -> Z) :=
  match c with
  | Root body => slot body
  | Derived base body =>
      match slot body with
      | Some f => Some f
      | None => final_overrider slot base
      end
  end.

(** A virtual call on an object whose dynamic type is [c]. *)
Definition virtual_call (slot : Methods -> option (Z -> Z)) (c : CxxClass)
    (arg : Z) : option Z :=
  match final_overrider slot c with
  | Some f => Some (f arg)
  | None => None
  end.

Module ConsensusRules.

(** [class ConsensusRules]: both methods are pure virtual. *)
Definition class : CxxClass :=
  Root {| decl_NameExpirationDepth := None;
          decl_MinNameCoinAmount := None |}.

(** [rules->NameExpirationDepth (nHeight)], for [rules] pointing to an
    object of the given class. *)
Definition NameExpirationDepth (rules : CxxClass) (nHeight : Z) : option Z :=
  virtual_call decl_NameExpirationDepth rules nHeight.

(** [rules->MinNameCoinAmount (nHeight)] *)
Definition MinNameCoinAmount (rules : CxxClass) (nHeight : Z) : option Z :=
  virtual_call decl_MinNameCoinAmount rules nHeight.

End ConsensusRules.

Module MainNetConsensus.

Definition NameExpirationDepth (nHeight : Z) : Z :=
  if nHeight <? 24000 then 12000
  else if nHeight <? 48000 then wrap_unsigned (nHeight - 12000)
  else 36000.

Definition MinNameCoinAmount `{amount_h} (nHeight : Z) : Z :=
  if nHeight <? 212500 then 0
  else Z.quot COIN 100.

(** [class MainNetConsensus : public ConsensusRules] *)
Definition class `{amount_h} : CxxClass :=
  Derived ConsensusRules.class
    {| decl_NameExpirationDepth := Some NameExpirationDepth;
       decl_MinNameCoinAmount := Some MinNameCoinAmount |}.

End MainNetConsensus.

Module TestNetConsensus.

Definition MinNameCoinAmount `{amount_h} (_ : Z) : Z :=
  Z.quot COIN 100.

(** [class TestNetConsensus : public MainNetConsensus] *)
Definition class `{amount_h} : CxxClass :=
  Derived MainNetConsensus.class
    {| decl_NameExpirationDepth := None;
       decl_MinNameCoinAmount := Some MinNameCoinAmount |}.

End TestNetConsensus.

Module RegTestConsensus.

Definition NameExpirationDepth (nHeight : Z) : Z := 30.

(** [class RegTestConsensus : public TestNetConsensus] *)
Definition class `{amount_h} : CxxClass :=
  Derived TestNetConsensus.class
    {| decl_NameExpirationDepth := Some NameExpirationDepth;
       decl_MinNameCoinAmount := None |}.

End RegTestConsensus.

(** The three classes of the header that can be instantiated: the dynamic
    types the [rules] pointer of [Params] can have. *)
Definition concrete `{amount_h} (c : CxxClass) : Prop :=
  c = MainNetConsensus.class
  \/ c = TestNetConsensus.class
  \/ c = RegTestConsensus.class.

(* ================================================================== *)
(** ** Deployments *)

Inductive DeploymentPos : Type :=
| DEPLOYMENT_TESTDUMMY.

Definition MAX_VERSION_BITS_DEPLOYMENTS : nat := 1.

Record BIP9Deployment : Type := {
  bit : Z;
  nStartTime : Z;
  nTimeout : Z
}.

Definition NO_TIMEOUT : Z := INT64_MAX.
Definition ALWAYS_ACTIVE : Z := -1.

(* ================================================================== *)
(** ** [struct Params] *)

Record Params : Type := {
  hashGenesisBlock : Z;
  nSubsidyHalvingInterval : Z;
  BIP16Height : Z;
  BIP34Height : Z;
  BIP34Hash : Z;
  BIP65Height : Z;
  BIP66Height : Z;
  nRuleChangeActivationThreshold : Z;
  nMinerConfirmationWindow : Z;
  vDeployments : list BIP9Deployment;
  powLimit : Z;
  fPowAllowMinDifficultyBlocks : bool;
  nMinDifficultySince : Z;
  fPowNoRetargeting : bool;
  nPowTargetSpacing : Z;
  nPowTargetTimespan : Z;
  nMinimumChainWork : Z;
  defaultAssumeValid : Z;
  nAuxpowChainId : Z;
  nAuxpowStartHeight : Z;
  fStrictChainId : bool;
  nLegacyBlocksBefore : Z;
  rules : CxxClass
}.

Definition DifficultyAdjustmentInterval (p : Params) : option Z :=
  div_int64 (nPowTargetTimespan p) (nPowTargetSpacing p).

Definition AllowMinDifficultyBlocks (p : Params) (nBlockTime : Z) : bool :=
  if negb (fPowAllowMinDifficultyBlocks p) then false
  else nBlockTime >? nMinDifficultySince p.

Definition AllowLegacyBlocks (p : Params) (nHeight : Z) : bool :=
  if nLegacyBlocksBefore p <? 0 then true
  else to_int nHeight <? nLegacyBlocksBefore p.

(** A parameter object with chosen values for the fields the three queries
    read; every other field is zero and the rule object is the regtest one. *)
Definition sampleParams `{amount_h} (timespan spacing : Z) (allowMinDiff : bool)
    (minDiffSince legacyBefore : Z) : Params :=
  {| hashGenesisBlock := 0;
     nSubsidyHalvingInterval := 0;
     BIP16Height := 0;
     BIP34Height := 0;
     BIP34Hash := 0;
     BIP65Height := 0;
     BIP66Height := 0;
     nRuleChangeActivationThreshold := 0;
     nMinerConfirmationWindow := 0;
     vDeployments := [ {| bit := 28; nStartTime := 0; nTimeout := NO_TIMEOUT |} ];
     powLimit := 0;
     fPowAllowMinDifficultyBlocks := allowMinDiff;
     nMinDifficultySince := minDiffSince;
     fPowNoRetargeting := false;
     nPowTargetSpacing := spacing;
     nPowTargetTimespan := timespan;
     nMinimumChainWork := 0;
     defaultAssumeValid := 0;
     nAuxpowChainId := 0;
     nAuxpowStartHeight := 0;
     fStrictChainId := true;
     nLegacyBlocksBefore := legacyBefore;
     rules := RegTestConsensus.class |}.

(** One coin as 10^8 base units, for the concrete instances below. *)
Definition coin_1e8 : amount_h := {| COIN := 100000000 |}.

(* ================================================================== *)
(** * Properties *)

(** ** Machine integers *)

Section CIntFacts.

Lemma wrap_unsigned_id (z : Z) : is_unsigned z -> wrap_unsigned z = z.
Proof.
  unfold is_unsigned, wrap_unsigned. intros Hz.
  now apply Z.mod_small.
Qed.

Lemma wrap_unsigned_range (z : Z) : is_unsigned (wrap_unsigned z).
Proof.
  unfold is_unsigned, wrap_unsigned, UINT_MODULUS.
  apply Z.mod_pos_bound. lia.
Qed.

(** The cast keeps the lower half of the unsigned range ... *)
Lemma to_int_low (u : Z) : 0 <= u <= INT_MAX -> to_int u = u.
Proof.
  unfold to_int, INT_MAX, UINT_MODULUS. intros Hu.
  rewrite Z.mod_small by lia. lia.
Qed.

(** ... and maps the upper half onto the negative numbers. *)
Lemma to_int_high (u : Z) :
  INT_MAX < u < UINT_MODULUS -> to_int u = u - UINT_MODULUS.
Proof.
  unfold to_int, INT_MAX, UINT_MODULUS. intros Hu.
  replace (u + 2 ^ 31) with (u - 2 ^ 31 + 1 * 2 ^ 32) by lia.
  rewrite Z.mod_add by lia.
  rewrite Z.mod_small by lia. lia.
Qed.

Lemma to_int_range (u : Z) : is_int (to_int u).
Proof.
  unfold is_int, to_int, INT_MIN, INT_MAX, UINT_MODULUS.
  pose proof (Z.mod_pos_bound (u + 2 ^ 31) (2 ^ 32) ltac:(lia)). lia.
Qed.

Lemma div_int64_defined (a b : Z) :
  b <> 0 -> ~ (a = INT64_MIN /\ b = -1) -> div_int64 a b = Some (Z.quot a b).
Proof.
  intros Hb Hov. unfold div_int64.
  destruct (Z.eqb_spec b 0) as [->|_]; [contradiction|].
  destruct (Z.eqb_spec a INT64_MIN) as [Ha|_]; simpl; [|reflexivity].
  destruct (Z.eqb_spec b (-1)) as [Hb1|_]; [|reflexivity].
  exfalso. now apply Hov.
Qed.

(** A defined quotient of two [int64_t] values is an [int64_t] value. *)
Lemma div_int64_range (a b q : Z) :
  is_int64 a -> is_int64 b -> div_int64 a b = Some q -> is_int64 q.
Proof.
  unfold div_int64, is_int64, INT64_MIN, INT64_MAX. intros Ha Hb.
  destruct (Z.eqb_spec b 0) as [|Hb0]; [discriminate|].
  destruct (Z.eqb_spec a (- 2 ^ 63)) as [Hmin|Hmin]; simpl.
  - destruct (Z.eqb_spec b (-1)) as [|Hb1]; [discriminate|].
    intros [= <-].
    destruct (Z.eq_dec b 1) as [->|Hb2]; [rewrite Z.quot_1_r; lia|].
    pose proof (Z.quot_abs a b Hb0) as Habs.
    assert (Hle : Z.abs a ÷ Z.abs b <= Z.abs a ÷ 2).
    { apply Z.quot_le_compat_l; lia. }
    assert (Hhalf : Z.abs a ÷ 2 <= 2 ^ 62).
    { subst a. vm_compute. discriminate. }
    assert (2 ^ 62 < 2 ^ 63) by (vm_compute; reflexivity).
    lia.
  - intros [= <-].
    pose proof (Z.quot_abs a b Hb0) as Habs.
    assert (Hle : Z.abs a ÷ Z.abs b <= Z.abs a ÷ 1).
    { apply Z.quot_le_compat_l; lia. }
    rewrite Z.quot_1_r in Hle. lia.
Qed.

End CIntFacts.

(** ** Virtual dispatch in the rule hierarchy *)

Section Dispatch.

Context `{amount_h}.

Lemma overrider_NameExpirationDepth_MainNet :
  final_overrider decl_NameExpirationDepth MainNetConsensus.class
  = Some MainNetConsensus.NameExpirationDepth.
Proof. reflexivity. Qed.

Lemma overrider_NameExpirationDepth_TestNet :
  final_overrider decl_NameExpirationDepth TestNetConsensus.class
  = Some MainNetConsensus.NameExpirationDepth.
Proof. reflexivity. Qed.

Lemma overrider_NameExpirationDepth_RegTest :
  final_overrider decl_NameExpirationDepth RegTestConsensus.class
  = Some RegTestConsensus.NameExpirationDepth.
Proof. reflexivity. Qed.

Lemma overrider_MinNameCoinAmount_MainNet :
  final_overrider decl_MinNameCoinAmount MainNetConsensus.class
  = Some MainNetConsensus.MinNameCoinAmount.
Proof. reflexivity. Qed.

Lemma overrider_MinNameCoinAmount_TestNet :
  final_overrider decl_MinNameCoinAmount TestNetConsensus.class
  = Some TestNetConsensus.MinNameCoinAmount.
Proof. reflexivity. Qed.

Lemma overrider_MinNameCoinAmount_RegTest :
  final_overrider decl_MinNameCoinAmount RegTestConsensus.class
  = Some TestNetConsensus.MinNameCoinAmount.
Proof. reflexivity. Qed.

Lemma call_NameExpirationDepth_MainNet (h : Z) :
  ConsensusRules.NameExpirationDepth MainNetConsensus.class h
  = Some (MainNetConsensus.NameExpirationDepth h).
Proof. reflexivity. Qed.

Lemma call_MinNameCoinAmount_MainNet (h : Z) :
  ConsensusRules.MinNameCoinAmount MainNetConsensus.class h
  = Some (MainNetConsensus.MinNameCoinAmount h).
Proof. reflexivity. Qed.

(** The interface alone answers no call: its methods are pure virtual. *)
Lemma interface_is_abstract (h : Z) :
  ConsensusRules.NameExpirationDepth ConsensusRules.class h = None
  /\ ConsensusRules.MinNameCoinAmount ConsensusRules.class h = None.
Proof. split; reflexivity. Qed.

End Dispatch.

(** ** Main network: expiration depth *)

Section MainNetExpiration.

Import MainNetConsensus.

Lemma main_depth_cases (h : Z) :
  (h < 24000 /\ NameExpirationDepth h = 12000)
  \/ (24000 <= h < 48000 /\ NameExpirationDepth h = h - 12000)
  \/ (48000 <= h /\ NameExpirationDepth h = 36000).
Proof.
  unfold NameExpirationDepth.
  destruct (Z.ltb_spec h 24000) as [Hlo|Hlo]; [now left|].
  destruct (Z.ltb_spec h 48000) as [Hmid|Hmid]; [|now right; right].
  right; left. split; [lia|].
  apply wrap_unsigned_id. unfold is_unsigned, UINT_MODULUS. lia.
Qed.

(** The depth is a value of the return type. *)
Lemma main_depth_is_unsigned (h : Z) : is_unsigned (NameExpirationDepth h).
Proof.
  destruct (main_depth_cases h) as [[_ ->]|[[Hh ->]|[_ ->]]];
    unfold is_unsigned, UINT_MODULUS; lia.
Qed.

(** Update height up to which names expire at height [h]. *)
Lemma main_boundary_cases (h : Z) :
  (h < 24000 /\ h - NameExpirationDepth h = h - 12000)
  \/ (24000 <= h < 48000 /\ h - NameExpirationDepth h = 12000)
  \/ (48000 <= h /\ h - NameExpirationDepth h = h - 36000).
Proof.
  destruct (main_depth_cases h) as [[Hh ->]|[[Hh ->]|[Hh ->]]];
    [left|right; left|right; right]; split; lia.
Qed.

End MainNetExpiration.

(** C1. Under the main-network rules the exact integer
    [h - NameExpirationDepth(h)] never decreases when the height grows:
    for heights [h1 <= h2] both calls return a depth, and
    [h1 - depth(h1) <= h2 - depth(h2)], across the breakpoints 24000 and
    48000 as well. *)
Theorem main_expiration_boundary_monotone `{amount_h} (h1 h2 : Z) :
  h1 <= h2 ->
  exists d1 d2 : Z,
    ConsensusRules.NameExpirationDepth MainNetConsensus.class h1 = Some d1
    /\ ConsensusRules.NameExpirationDepth MainNetConsensus.class h2 = Some d2
    /\ h1 - d1 <= h2 - d2.
Proof.
  intros Hle.
  exists (MainNetConsensus.NameExpirationDepth h1),
         (MainNetConsensus.NameExpirationDepth h2).
  rewrite !call_NameExpirationDepth_MainNet.
  split; [reflexivity|]. split; [reflexivity|].
  destruct (main_boundary_cases h1) as [[A1 E1]|[[A1 E1]|[A1 E1]]];
  destruct (main_boundary_cases h2) as [[A2 E2]|[[A2 E2]|[A2 E2]]];
  lia.
Qed.

Lemma main_expiration_boundary_monotone_witness :
  23999 <= 24000
  /\ exists d1 d2 : Z,
       ConsensusRules.NameExpirationDepth
         (@MainNetConsensus.class coin_1e8) 23999 = Some d1
       /\ ConsensusRules.NameExpirationDepth
            (@MainNetConsensus.class coin_1e8) 24000 = Some d2
       /\ 23999 - d1 <= 24000 - d2.
Proof.
  split; [lia|].
  apply (@main_expiration_boundary_monotone coin_1e8 23999 24000). lia.
Defined.

(** Step form of the same fact: one more block never moves the boundary
    back. *)
Corollary main_expiration_boundary_step `{amount_h} (h : Z) :
  exists d d' : Z,
    ConsensusRules.NameExpirationDepth MainNetConsensus.class h = Some d
    /\ ConsensusRules.NameExpirationDepth MainNetConsensus.class (h + 1)
       = Some d'
    /\ h - d <= (h + 1) - d'.
Proof.
  exists (MainNetConsensus.NameExpirationDepth h),
         (MainNetConsensus.NameExpirationDepth (h + 1)).
  rewrite !call_NameExpirationDepth_MainNet.
  split; [reflexivity|]. split; [reflexivity|].
  destruct (main_boundary_cases h) as [[A1 E1]|[[A1 E1]|[A1 E1]]];
  destruct (main_boundary_cases (h + 1)) as [[A2 E2]|[[A2 E2]|[A2 E2]]];
  lia.
Qed.

(** C2. Under the main-network rules [NameExpirationDepth] is the piecewise
    function: 12000 below height 24000, [h - 12000] for
    [24000 <= h < 48000], and 36000 from height 48000 on; in particular it
    is 12000 at 0, 23999 and 24000, 35999 at 47999, and 36000 at 48000 and
    at 1000000. *)
Theorem main_NameExpirationDepth_piecewise `{amount_h} :
  let depth := ConsensusRules.NameExpirationDepth MainNetConsensus.class in
  (forall h : Z, h < 24000 -> depth h = Some 12000)
  /\ (forall h : Z, 24000 <= h < 48000 -> depth h = Some (h - 12000))
  /\ (forall h : Z, 48000 <= h -> depth h = Some 36000)
  /\ depth 0 = Some 12000
  /\ depth 23999 = Some 12000
  /\ depth 24000 = Some 12000
  /\ depth 47999 = Some 35999
  /\ depth 48000 = Some 36000
  /\ depth 1000000 = Some 36000.
Proof.
  cbv zeta.
  repeat match goal with |- _ /\ _ => split end;
    try reflexivity;
    intros h Hh; rewrite call_NameExpirationDepth_MainNet; f_equal;
    destruct (main_depth_cases h) as [[A ->]|[[A ->]|[A ->]]]; lia.
Qed.

Lemma main_NameExpirationDepth_piecewise_witness :
  let depth :=
    ConsensusRules.NameExpirationDepth (@MainNetConsensus.class coin_1e8) in
  (10 < 24000 /\ depth 10 = Some 12000)
  /\ (24000 <= 30000 < 48000 /\ depth 30000 = Some 18000)
  /\ (48000 <= 50000 /\ depth 50000 = Some 36000).
Proof.
  cbv zeta.
  pose proof (@main_NameExpirationDepth_piecewise coin_1e8) as P.
  cbv zeta in P. destruct P as (Plo & Pmid & Phi & _).
  split; [|split].
  - split; [lia|]. apply Plo. lia.
  - split; [lia|]. apply (Pmid 30000). lia.
  - split; [lia|]. apply Phi. lia.
Defined.

(** ** Minimum locked amount *)

(** C5. Under the main-network rules [MinNameCoinAmount] is 0 below height
    212500 and one hundredth of a coin, [COIN / 100], from height 212500
    on; in particular 0 at heights 0 and 212499 and [COIN / 100] at
    212500. *)
Theorem main_MinNameCoinAmount_threshold `{amount_h} :
  let amount := ConsensusRules.MinNameCoinAmount MainNetConsensus.class in
  (forall h : Z, h < 212500 -> amount h = Some 0)
  /\ (forall h : Z, 212500 <= h -> amount h = Some (Z.quot COIN 100))
  /\ amount 0 = Some 0
  /\ amount 212499 = Some 0
  /\ amount 212500 = Some (Z.quot COIN 100).
Proof.
  cbv zeta.
  repeat match goal with |- _ /\ _ => split end;
    try reflexivity;
    intros h Hh; rewrite call_MinNameCoinAmount_MainNet; f_equal;
    unfold MainNetConsensus.MinNameCoinAmount;
    destruct (Z.ltb_spec h 212500); (reflexivity || lia).
Qed.

Lemma main_MinNameCoinAmount_threshold_witness :
  let amount :=
    ConsensusRules.MinNameCoinAmount (@MainNetConsensus.class coin_1e8) in
  (100000 < 212500 /\ amount 100000 = Some 0)
  /\ (212500 <= 300000 /\ amount 300000 = Some 1000000).
Proof.
  cbv zeta.
  pose proof (@main_MinNameCoinAmount_threshold coin_1e8) as P.
  cbv zeta in P. destruct P as (Plo & Phi & _).
  split.
  - split; [lia|]. apply Plo. lia.
  - split; [lia|]. apply (Phi 300000). lia.
Defined.

(** C6. Under the test-network and the regtest rules [MinNameCoinAmount]
    is one hundredth of a coin, [COIN / 100], at every height, whatever the
    argument: at 0 and at 10000000 in particular. *)
Theorem test_regtest_MinNameCoinAmount_constant `{amount_h} :
  (forall h : Z,
      ConsensusRules.MinNameCoinAmount TestNetConsensus.class h
      = Some (Z.quot COIN 100))
  /\ (forall h : Z,
      ConsensusRules.MinNameCoinAmount RegTestConsensus.class h
      = Some (Z.quot COIN 100))
  /\ ConsensusRules.MinNameCoinAmount TestNetConsensus.class 0
     = ConsensusRules.MinNameCoinAmount TestNetConsensus.class 10000000
  /\ ConsensusRules.MinNameCoinAmount RegTestConsensus.class 0
     = ConsensusRules.MinNameCoinAmount RegTestConsensus.class 10000000.
Proof.
  repeat split.
Qed.

(** ** Regtest and test network: expiration depth *)

(** C7. Under the regtest rules [NameExpirationDepth] is 30 at every
    height, whatever the argument: at 0 and at 10000000 in particular. *)
Theorem regtest_NameExpirationDepth_constant `{amount_h} :
  (forall h : Z,
      ConsensusRules.NameExpirationDepth RegTestConsensus.class h = Some 30)
  /\ ConsensusRules.NameExpirationDepth RegTestConsensus.class 0 = Some 30
  /\ ConsensusRules.NameExpirationDepth RegTestConsensus.class 10000000
     = Some 30.
Proof.
  repeat split.
Qed.

(** C9. The test-network rules answer [NameExpirationDepth] exactly as the
    main-network rules do, at every height: the test-network class declares
    no [NameExpirationDepth] of its own, so the call resolves to the
    main-network definition; the only method it overrides is
    [MinNameCoinAmount]. *)
Theorem testnet_NameExpirationDepth_is_mainnet `{amount_h} :
  (forall h : Z,
      ConsensusRules.NameExpirationDepth TestNetConsensus.class h
      = ConsensusRules.NameExpirationDepth MainNetConsensus.class h)
  /\ (forall h : Z,
      ConsensusRules.NameExpirationDepth TestNetConsensus.class h
      = Some (MainNetConsensus.NameExpirationDepth h))
  /\ final_overrider decl_NameExpirationDepth TestNetConsensus.class
     = final_overrider decl_NameExpirationDepth MainNetConsensus.class
  /\ final_overrider decl_MinNameCoinAmount TestNetConsensus.class
     = Some TestNetConsensus.MinNameCoinAmount.
Proof.
  repeat split.
Qed.

(** ** [Params::DifficultyAdjustmentInterval] *)

(** C8. [DifficultyAdjustmentInterval ()] is the quotient of
    [nPowTargetTimespan] by [nPowTargetSpacing] under truncating integer
    division: whenever the division is defined the result is the quotient
    rounded towards zero (the quotient of the magnitudes, rounded down, with
    the sign of the operands' product); a timespan of 1209600 with a spacing
    of 600 gives 2016, and the pair 1000 and 300, which does not divide
    evenly, gives 3. *)
Theorem DifficultyAdjustmentInterval_truncating_quotient :
  (forall p : Params,
      nPowTargetSpacing p <> 0 ->
      ~ (nPowTargetTimespan p = INT64_MIN /\ nPowTargetSpacing p = -1) ->
      DifficultyAdjustmentInterval p
      = Some (Z.quot (nPowTargetTimespan p) (nPowTargetSpacing p))
      /\ Z.quot (nPowTargetTimespan p) (nPowTargetSpacing p)
         = Z.sgn (nPowTargetTimespan p) * Z.sgn (nPowTargetSpacing p)
           * (Z.abs (nPowTargetTimespan p) / Z.abs (nPowTargetSpacing p)))
  /\ (forall p : Params,
      nPowTargetTimespan p = 1209600 -> nPowTargetSpacing p = 600 ->
      DifficultyAdjustmentInterval p = Some 2016)
  /\ (forall p : Params,
      nPowTargetTimespan p = 1000 -> nPowTargetSpacing p = 300 ->
      DifficultyAdjustmentInterval p = Some 3).
Proof.
  split; [|split].
  - intros p Hsp Hov. split.
    + unfold DifficultyAdjustmentInterval. now apply div_int64_defined.
    + now apply Z.quot_div.
  - intros p Hts Hsp. unfold DifficultyAdjustmentInterval.
    rewrite Hts, Hsp. reflexivity.
  - intros p Hts Hsp. unfold DifficultyAdjustmentInterval.
    rewrite Hts, Hsp. reflexivity.
Qed.

Lemma DifficultyAdjustmentInterval_truncating_quotient_witness :
  let two_weeks := @sampleParams coin_1e8 1209600 600 false 0 (-1) in
  let uneven := @sampleParams coin_1e8 1000 300 false 0 (-1) in
  let negative := @sampleParams coin_1e8 (-1000) 300 false 0 (-1) in
  (nPowTargetSpacing negative <> 0
   /\ ~ (nPowTargetTimespan negative = INT64_MIN
         /\ nPowTargetSpacing negative = -1)
   /\ DifficultyAdjustmentInterval negative = Some (-3))
  /\ (nPowTargetTimespan two_weeks = 1209600
      /\ nPowTargetSpacing two_weeks = 600
      /\ DifficultyAdjustmentInterval two_weeks = Some 2016)
  /\ (nPowTargetTimespan uneven = 1000
      /\ nPowTargetSpacing uneven = 300
      /\ DifficultyAdjustmentInterval uneven = Some 3).
Proof.
  cbv zeta.
  destruct DifficultyAdjustmentInterval_truncating_quotient
    as (Pgen & Pweeks & Puneven).
  split; [|split].
  - assert (Hsp : nPowTargetSpacing
                    (@sampleParams coin_1e8 (-1000) 300 false 0 (-1)) <> 0)
      by (simpl; lia).
    assert (Hov : ~ (nPowTargetTimespan
                       (@sampleParams coin_1e8 (-1000) 300 false 0 (-1))
                     = INT64_MIN
                     /\ nPowTargetSpacing
                          (@sampleParams coin_1e8 (-1000) 300 false 0 (-1))
                        = -1))
      by (simpl; intros [_ Hneg]; lia).
    split; [exact Hsp|]. split; [exact Hov|].
    exact (proj1 (Pgen _ Hsp Hov)).
  - split; [reflexivity|]. split; [reflexivity|].
    apply Pweeks; reflexivity.
  - split; [reflexivity|]. split; [reflexivity|].
    apply Puneven; reflexivity.
Defined.

(** The interval of well-typed parameters is a value of the return type. *)
Lemma DifficultyAdjustmentInterval_is_int64 (p : Params) (q : Z) :
  is_int64 (nPowTargetTimespan p) -> is_int64 (nPowTargetSpacing p) ->
  DifficultyAdjustmentInterval p = Some q -> is_int64 q.
Proof.
  unfold DifficultyAdjustmentInterval. apply div_int64_range.
Qed.

(** ** [Params::AllowMinDifficultyBlocks] *)

(** C4. [AllowMinDifficultyBlocks (t)] is false for every block time [t]
    when [fPowAllowMinDifficultyBlocks] is false; when the flag is true it
    is true exactly when [t] is strictly greater than
    [nMinDifficultySince]: false at [nMinDifficultySince] itself and true
    one second later. *)
Theorem AllowMinDifficultyBlocks_strictly_after (p : Params) :
  (fPowAllowMinDifficultyBlocks p = false ->
   forall t : Z, AllowMinDifficultyBlocks p t = false)
  /\ (fPowAllowMinDifficultyBlocks p = true ->
      (forall t : Z,
          AllowMinDifficultyBlocks p t = true <-> t > nMinDifficultySince p)
      /\ AllowMinDifficultyBlocks p (nMinDifficultySince p) = false
      /\ AllowMinDifficultyBlocks p (nMinDifficultySince p + 1) = true).
Proof.
  unfold AllowMinDifficultyBlocks. split; intros Hflag; rewrite Hflag; simpl.
  - reflexivity.
  - split; [|split].
    + intros t. rewrite Z.gtb_ltb, Z.ltb_lt. lia.
    + rewrite Z.gtb_ltb. apply Z.ltb_irrefl.
    + rewrite Z.gtb_ltb. apply Z.ltb_lt. lia.
Qed.

Lemma AllowMinDifficultyBlocks_strictly_after_witness :
  let off := @sampleParams coin_1e8 1209600 600 false 1500000000 (-1) in
  let on := @sampleParams coin_1e8 1209600 600 true 1500000000 (-1) in
  (fPowAllowMinDifficultyBlocks off = false
   /\ AllowMinDifficultyBlocks off INT64_MAX = false)
  /\ (fPowAllowMinDifficultyBlocks on = true
      /\ AllowMinDifficultyBlocks on 1500000000 = false
      /\ AllowMinDifficultyBlocks on 1500000001 = true).
Proof.
  cbv zeta. split.
  - split; [reflexivity|].
    apply (proj1 (AllowMinDifficultyBlocks_strictly_after
                    (@sampleParams coin_1e8 1209600 600 false 1500000000 (-1))));
      reflexivity.
  - split; [reflexivity|].
    exact (proj2 (proj2 (AllowMinDifficultyBlocks_strictly_after
                    (@sampleParams coin_1e8 1209600 600 true 1500000000 (-1)))
                  eq_refl)).
Defined.

(** ** [Params::AllowLegacyBlocks] *)

(** With a cutoff that is not negative the answer is the signed comparison
    of the converted height with the cutoff. *)
Lemma AllowLegacyBlocks_signed_comparison (p : Params) (h : Z) :
  0 <= nLegacyBlocksBefore p ->
  (AllowLegacyBlocks p h = true <-> to_int h < nLegacyBlocksBefore p).
Proof.
  intros Hcut. unfold AllowLegacyBlocks.
  destruct (Z.ltb_spec (nLegacyBlocksBefore p) 0) as [Hneg|_]; [lia|].
  apply Z.ltb_lt.
Qed.

Lemma AllowLegacyBlocks_always (p : Params) (h : Z) :
  nLegacyBlocksBefore p < 0 -> AllowLegacyBlocks p h = true.
Proof.
  intros Hneg. unfold AllowLegacyBlocks.
  now destruct (Z.ltb_spec (nLegacyBlocksBefore p) 0) as [_|Hge]; [|lia].
Qed.

(** C3, as the specification words it, fails on the code: with a cutoff of
    100 the height 2^31, a value of the parameter's type [unsigned], is
    answered [true] although it is not below the cutoff. *)
Lemma AllowLegacyBlocks_not_unsigned_comparison :
  (is_unsigned 2147483648
   /\ nLegacyBlocksBefore (@sampleParams coin_1e8 1209600 600 false 0 100)
      = 100
   /\ AllowLegacyBlocks (@sampleParams coin_1e8 1209600 600 false 0 100)
        2147483648 = true
   /\ ~ (2147483648 < 100))
  /\ ~ (forall (p : Params) (h : Z),
          is_unsigned h -> 0 <= nLegacyBlocksBefore p ->
          (AllowLegacyBlocks p h = true <-> h < nLegacyBlocksBefore p)).
Proof.
  assert (Hu : is_unsigned 2147483648)
    by (unfold is_unsigned, UINT_MODULUS; lia).
  split.
  - split; [exact Hu|]. split; [reflexivity|]. split; [reflexivity|lia].
  - intros Hclaim.
    specialize (Hclaim (@sampleParams coin_1e8 1209600 600 false 0 100)
                       2147483648 Hu).
    simpl in Hclaim.
    assert (Hlt : 2147483648 < 100) by (apply Hclaim; [lia|reflexivity]).
    lia.
Qed.

(** C3 (amended). [AllowLegacyBlocks (h)] is true for every height when
    [nLegacyBlocksBefore] is negative; when the cutoff is not negative and
    the height is at most [INT_MAX] (so that its conversion to [int] keeps
    its value) it is true exactly when [h] is below the cutoff. With a
    cutoff of 100 it is true at height 99 and false at heights 100 and 101;
    with a cutoff of -1 it is true at heights 0 and 10000000. *)
Theorem AllowLegacyBlocks_below_cutoff (p : Params) :
  (nLegacyBlocksBefore p < 0 ->
   forall h : Z, AllowLegacyBlocks p h = true)
  /\ (0 <= nLegacyBlocksBefore p ->
      forall h : Z, 0 <= h <= INT_MAX ->
        (AllowLegacyBlocks p h = true <-> h < nLegacyBlocksBefore p))
  /\ (nLegacyBlocksBefore p = 100 ->
      AllowLegacyBlocks p 99 = true
      /\ AllowLegacyBlocks p 100 = false
      /\ AllowLegacyBlocks p 101 = false)
  /\ (nLegacyBlocksBefore p = -1 ->
      AllowLegacyBlocks p 0 = true
      /\ AllowLegacyBlocks p 10000000 = true).
Proof.
  split; [|split; [|split]].
  - intros Hneg h. now apply AllowLegacyBlocks_always.
  - intros Hcut h Hh.
    rewrite AllowLegacyBlocks_signed_comparison by assumption.
    now rewrite to_int_low.
  - intros Hcut. unfold AllowLegacyBlocks. rewrite Hcut.
    repeat split.
  - intros Hcut. unfold AllowLegacyBlocks. rewrite Hcut.
    repeat split.
Qed.

Lemma AllowLegacyBlocks_below_cutoff_witness :
  let always := @sampleParams coin_1e8 1209600 600 false 0 (-1) in
  let until100 := @sampleParams coin_1e8 1209600 600 false 0 100 in
  (nLegacyBlocksBefore always < 0
   /\ AllowLegacyBlocks always 4294967295 = true)
  /\ (0 <= nLegacyBlocksBefore until100
      /\ 0 <= 2147483647 <= INT_MAX
      /\ (AllowLegacyBlocks until100 2147483647 = true
          <-> 2147483647 < nLegacyBlocksBefore until100))
  /\ (nLegacyBlocksBefore until100 = 100
      /\ AllowLegacyBlocks until100 99 = true
      /\ AllowLegacyBlocks until100 100 = false
      /\ AllowLegacyBlocks until100 101 = false)
  /\ (nLegacyBlocksBefore always = -1
      /\ AllowLegacyBlocks always 0 = true
      /\ AllowLegacyBlocks always 10000000 = true).
Proof.
  cbv zeta.
  destruct (AllowLegacyBlocks_below_cutoff
              (@sampleParams coin_1e8 1209600 600 false 0 (-1)))
    as (Aneg & _ & _ & Aminus1).
  destruct (AllowLegacyBlocks_below_cutoff
              (@sampleParams coin_1e8 1209600 600 false 0 100))
    as (_ & Bcut & B100 & _).
  split; [|split; [|split]].
  - assert (Hneg : nLegacyBlocksBefore
                     (@sampleParams coin_1e8 1209600 600 false 0 (-1)) < 0)
      by (simpl; lia).
    split; [exact Hneg|]. now apply Aneg.
  - assert (Hcut : 0 <= nLegacyBlocksBefore
                          (@sampleParams coin_1e8 1209600 600 false 0 100))
      by (simpl; lia).
    assert (Hh : 0 <= 2147483647 <= INT_MAX)
      by (unfold INT_MAX; lia).
    split; [exact Hcut|]. split; [exact Hh|]. now apply Bcut.
  - split; [reflexivity|]. now apply B100.
  - split; [reflexivity|]. now apply Aminus1.
Defined.

(** C10. [AllowLegacyBlocks] compares the height after converting it to
    [int]. A height in the upper half of the [unsigned] range,
    [2^31 <= h < 2^32], converts to the negative number [h - 2^32]; so for
    every cutoff of type [int] that is not negative the answer is [true],
    although [h] is not below the cutoff. *)
Theorem AllowLegacyBlocks_wraps_large_heights (p : Params) (h : Z) :
  0 <= nLegacyBlocksBefore p <= INT_MAX ->
  2 ^ 31 <= h < UINT_MODULUS ->
  to_int h = h - UINT_MODULUS
  /\ to_int h < 0
  /\ AllowLegacyBlocks p h = true
  /\ nLegacyBlocksBefore p <= h.
Proof.
  intros Hcut Hh.
  assert (Hconv : to_int h = h - UINT_MODULUS)
    by (apply to_int_high; unfold INT_MAX; lia).
  split; [exact Hconv|].
  split; [lia|].
  split.
  - apply AllowLegacyBlocks_signed_comparison; lia.
  - unfold INT_MAX in Hcut. lia.
Qed.

Lemma AllowLegacyBlocks_wraps_large_heights_witness :
  let p := @sampleParams coin_1e8 1209600 600 false 0 100 in
  0 <= nLegacyBlocksBefore p <= INT_MAX
  /\ 2 ^ 31 <= 2147483648 < UINT_MODULUS
  /\ to_int 2147483648 = -2147483648
  /\ AllowLegacyBlocks p 2147483648 = true
  /\ nLegacyBlocksBefore p <= 2147483648.
Proof.
  cbv zeta.
  assert (Hcut : 0 <= nLegacyBlocksBefore
                        (@sampleParams coin_1e8 1209600 600 false 0 100)
                 <= INT_MAX)
    by (simpl; unfold INT_MAX; lia).
  assert (Hh : 2 ^ 31 <= 2147483648 < UINT_MODULUS)
    by (unfold UINT_MODULUS; lia).
  destruct (AllowLegacyBlocks_wraps_large_heights _ 2147483648 Hcut Hh)
    as (Hconv & _ & Htrue & Hge).
  split; [exact Hcut|]. split; [exact Hh|].
  split; [rewrite Hconv; reflexivity|].
  split; [exact Htrue|exact Hge].
Defined.

(* ================================================================== *)
(** * Further properties of the header *)

(** ** Auxiliary facts *)

Lemma wrap_unsigned_fixed_iff (z : Z) : wrap_unsigned z = z <-> is_unsigned z.
Proof.
  split.
  - intros Hfix. rewrite <- Hfix. apply wrap_unsigned_range.
  - apply wrap_unsigned_id.
Qed.

Lemma quot_100_bounds (c : Z) : 100 * Z.abs (Z.quot c 100) <= Z.abs c.
Proof.
  rewrite <- (Z.quot_abs c 100) by lia.
  change (Z.abs 100) with 100.
  rewrite Z.quot_div_nonneg by lia.
  apply Z.mul_div_le. lia.
Qed.

Lemma quot_100_nonneg (c : Z) : 0 <= c -> 0 <= Z.quot c 100.
Proof.
  intros Hc. apply Z.quot_pos; lia.
Qed.

Section ConcreteClasses.

Context `{amount_h}.

Lemma call_NameExpirationDepth_TestNet (h : Z) :
  ConsensusRules.NameExpirationDepth TestNetConsensus.class h
  = Some (MainNetConsensus.NameExpirationDepth h).
Proof. reflexivity. Qed.

Lemma call_NameExpirationDepth_RegTest (h : Z) :
  ConsensusRules.NameExpirationDepth RegTestConsensus.class h = Some 30.
Proof. reflexivity. Qed.

Lemma call_MinNameCoinAmount_TestNet (h : Z) :
  ConsensusRules.MinNameCoinAmount TestNetConsensus.class h
  = Some (Z.quot COIN 100).
Proof. reflexivity. Qed.

Lemma call_MinNameCoinAmount_RegTest (h : Z) :
  ConsensusRules.MinNameCoinAmount RegTestConsensus.class h
  = Some (Z.quot COIN 100).
Proof. reflexivity. Qed.

Lemma main_amount_cases (h : Z) :
  (h < 212500 /\ MainNetConsensus.MinNameCoinAmount h = 0)
  \/ (212500 <= h /\ MainNetConsensus.MinNameCoinAmount h = Z.quot COIN 100).
Proof.
  unfold MainNetConsensus.MinNameCoinAmount.
  destruct (Z.ltb_spec h 212500); [left|right]; split; (reflexivity || lia).
Qed.

End ConcreteClasses.

(** ** Main network: shape of the expiration depth *)

(** X1. Under the main-network rules the expiration depth lies between
    12000 and 36000 at every height, never shrinks when the height grows,
    and grows by at most one per block: for [h1 <= h2],
    [0 <= depth(h2) - depth(h1) <= h2 - h1]. *)
Theorem main_depth_bounded_monotone_slow `{amount_h} (h1 h2 : Z) :
  h1 <= h2 ->
  exists d1 d2 : Z,
    ConsensusRules.NameExpirationDepth MainNetConsensus.class h1 = Some d1
    /\ ConsensusRules.NameExpirationDepth MainNetConsensus.class h2 = Some d2
    /\ 12000 <= d1 /\ d2 <= 36000
    /\ d1 <= d2
    /\ d2 - d1 <= h2 - h1.
Proof.
  intros Hle.
  exists (MainNetConsensus.NameExpirationDepth h1),
         (MainNetConsensus.NameExpirationDepth h2).
  rewrite !call_NameExpirationDepth_MainNet.
  split; [reflexivity|]. split; [reflexivity|].
  destruct (main_depth_cases h1) as [[A1 ->]|[[A1 ->]|[A1 ->]]];
  destruct (main_depth_cases h2) as [[A2 ->]|[[A2 ->]|[A2 ->]]];
  lia.
Qed.

Lemma main_depth_bounded_monotone_slow_witness :
  30000 <= 50000
  /\ exists d1 d2 : Z,
       ConsensusRules.NameExpirationDepth
         (@MainNetConsensus.class coin_1e8) 30000 = Some d1
       /\ ConsensusRules.NameExpirationDepth
            (@MainNetConsensus.class coin_1e8) 50000 = Some d2
       /\ 12000 <= d1 /\ d2 <= 36000
       /\ d1 <= d2
       /\ d2 - d1 <= 50000 - 30000.
Proof.
  split; [lia|].
  apply (@main_depth_bounded_monotone_slow coin_1e8 30000 50000). lia.
Defined.

(** X2. Under the main-network rules the boundary
    [h - NameExpirationDepth(h)] stands still exactly on the heights 24000
    to 48000, where it is 12000: for [h1 < h2] the two boundaries are equal
    if and only if [24000 <= h1] and [h2 <= 48000], and otherwise the later
    one is strictly larger. *)
Theorem main_boundary_plateau `{amount_h} (h1 h2 : Z) :
  h1 < h2 ->
  exists d1 d2 : Z,
    ConsensusRules.NameExpirationDepth MainNetConsensus.class h1 = Some d1
    /\ ConsensusRules.NameExpirationDepth MainNetConsensus.class h2 = Some d2
    /\ (h1 - d1 = h2 - d2 <-> 24000 <= h1 /\ h2 <= 48000)
    /\ (h1 - d1 < h2 - d2 <-> h1 < 24000 \/ 48000 < h2)
    /\ (24000 <= h1 /\ h2 <= 48000 -> h1 - d1 = 12000).
Proof.
  intros Hlt.
  exists (MainNetConsensus.NameExpirationDepth h1),
         (MainNetConsensus.NameExpirationDepth h2).
  rewrite !call_NameExpirationDepth_MainNet.
  split; [reflexivity|]. split; [reflexivity|].
  destruct (main_boundary_cases h1) as [[A1 ->]|[[A1 ->]|[A1 ->]]];
  destruct (main_boundary_cases h2) as [[A2 ->]|[[A2 ->]|[A2 ->]]];
  lia.
Qed.

Lemma main_boundary_plateau_witness :
  47999 < 48000
  /\ exists d1 d2 : Z,
       ConsensusRules.NameExpirationDepth
         (@MainNetConsensus.class coin_1e8) 47999 = Some d1
       /\ ConsensusRules.NameExpirationDepth
            (@MainNetConsensus.class coin_1e8) 48000 = Some d2
       /\ (47999 - d1 = 48000 - d2 <-> 24000 <= 47999 /\ 48000 <= 48000)
       /\ (47999 - d1 < 48000 - d2 <-> 47999 < 24000 \/ 48000 < 48000)
       /\ (24000 <= 47999 /\ 48000 <= 48000 -> 47999 - d1 = 12000).
Proof.
  split; [lia|].
  apply (@main_boundary_plateau coin_1e8 47999 48000). lia.
Defined.

(** X3. Under the main-network rules the depth exceeds the height exactly
    below height 12000; so for a height of type [unsigned] the difference
    [nHeight - NameExpirationDepth (nHeight)], computed in [unsigned]
    arithmetic, is the exact difference if and only if the height is at
    least 12000, and wraps around below. *)
Theorem main_depth_exceeds_low_heights `{amount_h} (h : Z) :
  is_unsigned h ->
  exists d : Z,
    ConsensusRules.NameExpirationDepth MainNetConsensus.class h = Some d
    /\ (d <= h <-> 12000 <= h)
    /\ (wrap_unsigned (h - d) = h - d <-> 12000 <= h)
    /\ (h < 12000 -> wrap_unsigned (h - d) = h - d + UINT_MODULUS).
Proof.
  intros Hu. exists (MainNetConsensus.NameExpirationDepth h).
  rewrite call_NameExpirationDepth_MainNet.
  split; [reflexivity|].
  rewrite wrap_unsigned_fixed_iff.
  unfold is_unsigned, UINT_MODULUS in *.
  destruct (main_boundary_cases h) as [[A E]|[[A E]|[A E]]];
    (split; [lia|]); (split; [lia|]); intros Hlow; try lia.
  unfold wrap_unsigned, UINT_MODULUS. symmetry.
  apply (Z.mod_unique _ _ (-1)); [left|]; lia.
Qed.

Lemma main_depth_exceeds_low_heights_witness :
  is_unsigned 11999
  /\ exists d : Z,
       ConsensusRules.NameExpirationDepth
         (@MainNetConsensus.class coin_1e8) 11999 = Some d
       /\ (d <= 11999 <-> 12000 <= 11999)
       /\ (wrap_unsigned (11999 - d) = 11999 - d <-> 12000 <= 11999)
       /\ (11999 < 12000 ->
           wrap_unsigned (11999 - d) = 11999 - d + UINT_MODULUS).
Proof.
  assert (Hu : is_unsigned 11999)
    by (unfold is_unsigned, UINT_MODULUS; lia).
  split; [exact Hu|].
  exact (@main_depth_exceeds_low_heights coin_1e8 11999 Hu).
Defined.

(** ** All three rule classes *)

(** X4. Every class of the header that can be instantiated (main network,
    test network, regtest) keeps the invariant the source's comment asks
    for: for heights [h1 <= h2] the call returns a depth at both and
    [h1 - depth(h1) <= h2 - depth(h2)]. *)
Theorem every_class_boundary_monotone `{amount_h} (c : CxxClass) (h1 h2 : Z) :
  concrete c ->
  h1 <= h2 ->
  exists d1 d2 : Z,
    ConsensusRules.NameExpirationDepth c h1 = Some d1
    /\ ConsensusRules.NameExpirationDepth c h2 = Some d2
    /\ h1 - d1 <= h2 - d2.
Proof.
  intros [ -> | [ -> | -> ] ] Hle.
  - exists (MainNetConsensus.NameExpirationDepth h1),
           (MainNetConsensus.NameExpirationDepth h2).
    rewrite !call_NameExpirationDepth_MainNet.
    split; [reflexivity|]. split; [reflexivity|].
    destruct (main_boundary_cases h1) as [[A1 E1]|[[A1 E1]|[A1 E1]]];
    destruct (main_boundary_cases h2) as [[A2 E2]|[[A2 E2]|[A2 E2]]];
    lia.
  - exists (MainNetConsensus.NameExpirationDepth h1),
           (MainNetConsensus.NameExpirationDepth h2).
    rewrite !call_NameExpirationDepth_TestNet.
    split; [reflexivity|]. split; [reflexivity|].
    destruct (main_boundary_cases h1) as [[A1 E1]|[[A1 E1]|[A1 E1]]];
    destruct (main_boundary_cases h2) as [[A2 E2]|[[A2 E2]|[A2 E2]]];
    lia.
  - exists 30, 30. rewrite !call_NameExpirationDepth_RegTest.
    split; [reflexivity|]. split; [reflexivity|]. lia.
Qed.

Lemma every_class_boundary_monotone_witness :
  @concrete coin_1e8 (@RegTestConsensus.class coin_1e8)
  /\ 10 <= 40
  /\ exists d1 d2 : Z,
       ConsensusRules.NameExpirationDepth
         (@RegTestConsensus.class coin_1e8) 10 = Some d1
       /\ ConsensusRules.NameExpirationDepth
            (@RegTestConsensus.class coin_1e8) 40 = Some d2
       /\ 10 - d1 <= 40 - d2.
Proof.
  assert (Hc : @concrete coin_1e8 (@RegTestConsensus.class coin_1e8))
    by (right; right; reflexivity).
  split; [exact Hc|]. split; [lia|].
  apply (@every_class_boundary_monotone coin_1e8 _ 10 40 Hc). lia.
Defined.

(** X5. No instantiable class leaves a method of the interface without a
    definition, and the results are values of the declared return types:
    at every height [NameExpirationDepth] returns a depth in the range of
    [unsigned], and, when [COIN] is a [CAmount] value, [MinNameCoinAmount]
    returns an amount in the range of [CAmount]. *)
Theorem every_class_answers_in_range `{amount_h} (c : CxxClass) (h : Z) :
  concrete c ->
  is_int64 COIN ->
  exists d a : Z,
    ConsensusRules.NameExpirationDepth c h = Some d
    /\ is_unsigned d
    /\ ConsensusRules.MinNameCoinAmount c h = Some a
    /\ is_int64 a.
Proof.
  intros Hc Hcoin.
  assert (Hq : is_int64 (Z.quot COIN 100)).
  { pose proof (quot_100_bounds COIN) as Hb.
    unfold is_int64, INT64_MIN, INT64_MAX in *. lia. }
  assert (H0 : is_int64 0)
    by (unfold is_int64, INT64_MIN, INT64_MAX; lia).
  destruct Hc as [ -> | [ -> | -> ] ].
  - exists (MainNetConsensus.NameExpirationDepth h),
           (MainNetConsensus.MinNameCoinAmount h).
    split; [reflexivity|]. split; [apply main_depth_is_unsigned|].
    split; [reflexivity|].
    destruct (main_amount_cases h) as [[_ ->]|[_ ->]]; assumption.
  - exists (MainNetConsensus.NameExpirationDepth h), (Z.quot COIN 100).
    split; [reflexivity|]. split; [apply main_depth_is_unsigned|].
    split; [reflexivity|assumption].
  - exists 30, (Z.quot COIN 100).
    split; [reflexivity|].
    split; [unfold is_unsigned, UINT_MODULUS; lia|].
    split; [reflexivity|assumption].
Qed.

Lemma every_class_answers_in_range_witness :
  @concrete coin_1e8 (@TestNetConsensus.class coin_1e8)
  /\ is_int64 (@COIN coin_1e8)
  /\ exists d a : Z,
       ConsensusRules.NameExpirationDepth
         (@TestNetConsensus.class coin_1e8) 30000 = Some d
       /\ is_unsigned d
       /\ ConsensusRules.MinNameCoinAmount
            (@TestNetConsensus.class coin_1e8) 30000 = Some a
       /\ is_int64 a.
Proof.
  assert (Hc : @concrete coin_1e8 (@TestNetConsensus.class coin_1e8))
    by (right; left; reflexivity).
  assert (Hcoin : is_int64 (@COIN coin_1e8))
    by (unfold is_int64, INT64_MIN, INT64_MAX; simpl; lia).
  split; [exact Hc|]. split; [exact Hcoin|].
  exact (@every_class_answers_in_range coin_1e8 _ 30000 Hc Hcoin).
Defined.

(** ** Minimum locked amount across the classes *)

(** X6. From height 212500 on the three instantiable classes demand the
    same minimum amount, [COIN / 100]: whichever class the rule object has,
    the answer is the same. *)
Theorem every_class_same_amount_after_fork `{amount_h} (c1 c2 : CxxClass)
    (h : Z) :
  concrete c1 -> concrete c2 ->
  212500 <= h ->
  ConsensusRules.MinNameCoinAmount c1 h = Some (Z.quot COIN 100)
  /\ ConsensusRules.MinNameCoinAmount c1 h
     = ConsensusRules.MinNameCoinAmount c2 h.
Proof.
  intros Hc1 Hc2 Hh.
  assert (Hmain : ConsensusRules.MinNameCoinAmount MainNetConsensus.class h
                  = Some (Z.quot COIN 100)).
  { rewrite call_MinNameCoinAmount_MainNet. f_equal.
    destruct (main_amount_cases h) as [[A _]|[_ E]]; [lia|exact E]. }
  assert (Hall : forall c, concrete c ->
            ConsensusRules.MinNameCoinAmount c h = Some (Z.quot COIN 100)).
  { intros c [ -> | [ -> | -> ] ];
      [exact Hmain | reflexivity | reflexivity]. }
  split; [now apply Hall|].
  now rewrite (Hall c1), (Hall c2).
Qed.

Lemma every_class_same_amount_after_fork_witness :
  @concrete coin_1e8 (@MainNetConsensus.class coin_1e8)
  /\ @concrete coin_1e8 (@RegTestConsensus.class coin_1e8)
  /\ 212500 <= 212500
  /\ ConsensusRules.MinNameCoinAmount
       (@MainNetConsensus.class coin_1e8) 212500 = Some 1000000
  /\ ConsensusRules.MinNameCoinAmount
       (@MainNetConsensus.class coin_1e8) 212500
     = ConsensusRules.MinNameCoinAmount
         (@RegTestConsensus.class coin_1e8) 212500.
Proof.
  assert (Hc1 : @concrete coin_1e8 (@MainNetConsensus.class coin_1e8))
    by (left; reflexivity).
  assert (Hc2 : @concrete coin_1e8 (@RegTestConsensus.class coin_1e8))
    by (right; right; reflexivity).
  assert (Hh : 212500 <= 212500) by lia.
  split; [exact Hc1|]. split; [exact Hc2|]. split; [exact Hh|].
  exact (@every_class_same_amount_after_fork coin_1e8 _ _ 212500 Hc1 Hc2 Hh).
Defined.

(** X7. When [COIN] is not negative, the minimum amount of the main
    network is never negative, never decreases when the height grows, and
    never exceeds what the test network and regtest demand. *)
Theorem main_amount_monotone_below_testnet `{amount_h} (h1 h2 : Z) :
  0 <= COIN ->
  h1 <= h2 ->
  exists a1 a2 t : Z,
    ConsensusRules.MinNameCoinAmount MainNetConsensus.class h1 = Some a1
    /\ ConsensusRules.MinNameCoinAmount MainNetConsensus.class h2 = Some a2
    /\ ConsensusRules.MinNameCoinAmount TestNetConsensus.class h2 = Some t
    /\ ConsensusRules.MinNameCoinAmount RegTestConsensus.class h2 = Some t
    /\ 0 <= a1 /\ a1 <= a2 /\ a2 <= t.
Proof.
  intros Hcoin Hle.
  pose proof (quot_100_nonneg COIN Hcoin) as Hq.
  exists (MainNetConsensus.MinNameCoinAmount h1),
         (MainNetConsensus.MinNameCoinAmount h2),
         (Z.quot COIN 100).
  repeat (split; [reflexivity|]).
  destruct (main_amount_cases h1) as [[A1 ->]|[A1 ->]];
  destruct (main_amount_cases h2) as [[A2 ->]|[A2 ->]];
  lia.
Qed.

Lemma main_amount_monotone_below_testnet_witness :
  0 <= @COIN coin_1e8
  /\ 212499 <= 212500
  /\ exists a1 a2 t : Z,
       ConsensusRules.MinNameCoinAmount
         (@MainNetConsensus.class coin_1e8) 212499 = Some a1
       /\ ConsensusRules.MinNameCoinAmount
            (@MainNetConsensus.class coin_1e8) 212500 = Some a2
       /\ ConsensusRules.MinNameCoinAmount
            (@TestNetConsensus.class coin_1e8) 212500 = Some t
       /\ ConsensusRules.MinNameCoinAmount
            (@RegTestConsensus.class coin_1e8) 212500 = Some t
       /\ 0 <= a1 /\ a1 <= a2 /\ a2 <= t.
Proof.
  assert (Hcoin : 0 <= @COIN coin_1e8) by (simpl; lia).
  assert (Hle : 212499 <= 212500) by lia.
  split; [exact Hcoin|]. split; [exact Hle|].
  exact (@main_amount_monotone_below_testnet coin_1e8 212499 212500
           Hcoin Hle).
Defined.

(** ** [Params::DifficultyAdjustmentInterval]: edge cases and bounds *)


(** X9. For a timespan that is not negative and a positive spacing the
    interval is the number of whole spacings that fit into the timespan:
    [q * spacing <= timespan < (q + 1) * spacing] with [0 <= q <= timespan],
    and [q * spacing = timespan] exactly when the spacing divides the
    timespan. *)
Theorem DifficultyAdjustmentInterval_whole_spacings (p : Params) :
  0 <= nPowTargetTimespan p ->
  0 < nPowTargetSpacing p ->
  exists q : Z,
    DifficultyAdjustmentInterval p = Some q
    /\ q * nPowTargetSpacing p <= nPowTargetTimespan p
       < (q + 1) * nPowTargetSpacing p
    /\ 0 <= q <= nPowTargetTimespan p
    /\ (q * nPowTargetSpacing p = nPowTargetTimespan p
        <-> (nPowTargetSpacing p | nPowTargetTimespan p)).
Proof.
  intros Hts Hsp.
  exists (nPowTargetTimespan p / nPowTargetSpacing p).
  split.
  - unfold DifficultyAdjustmentInterval.
    rewrite div_int64_defined; [|lia|intros [_ Hneg]; lia].
    now rewrite Z.quot_div_nonneg.
  - pose proof (Z.div_mod (nPowTargetTimespan p) (nPowTargetSpacing p)
                  ltac:(lia)) as Hdm.
    pose proof (Z.mod_pos_bound (nPowTargetTimespan p) (nPowTargetSpacing p)
                  Hsp) as Hmod.
    pose proof (Z.div_pos (nPowTargetTimespan p) (nPowTargetSpacing p)
                  Hts Hsp) as Hq.
    split; [nia|]. split; [nia|].
    rewrite <- Z.mod_divide by lia. split; intros Heq; nia.
Qed.

Lemma DifficultyAdjustmentInterval_whole_spacings_witness :
  0 <= nPowTargetTimespan (@sampleParams coin_1e8 1000 300 false 0 (-1))
  /\ 0 < nPowTargetSpacing (@sampleParams coin_1e8 1000 300 false 0 (-1))
  /\ exists q : Z,
       DifficultyAdjustmentInterval
         (@sampleParams coin_1e8 1000 300 false 0 (-1)) = Some q
       /\ q * 300 <= 1000 < (q + 1) * 300
       /\ 0 <= q <= 1000
       /\ (q * 300 = 1000 <-> (300 | 1000)).
Proof.
  assert (Hts : 0 <= nPowTargetTimespan
                       (@sampleParams coin_1e8 1000 300 false 0 (-1)))
    by (simpl; lia).
  assert (Hsp : 0 < nPowTargetSpacing
                      (@sampleParams coin_1e8 1000 300 false 0 (-1)))
    by (simpl; lia).
  split; [exact Hts|]. split; [exact Hsp|].
  exact (DifficultyAdjustmentInterval_whole_spacings _ Hts Hsp).
Defined.

(** X10. When both fields hold [int64_t] values and the division is
    defined, the interval is an [int64_t] value again, and its magnitude is
    at most the magnitude of the timespan. *)
Theorem DifficultyAdjustmentInterval_representable (p : Params) (q : Z) :
  is_int64 (nPowTargetTimespan p) ->
  is_int64 (nPowTargetSpacing p) ->
  DifficultyAdjustmentInterval p = Some q ->
  is_int64 q /\ Z.abs q <= Z.abs (nPowTargetTimespan p).
Proof.
  intros Hts Hsp Hq. split.
  - exact (div_int64_range _ _ _ Hts Hsp Hq).
  - unfold DifficultyAdjustmentInterval, div_int64 in Hq.
    destruct (Z.eqb_spec (nPowTargetSpacing p) 0) as [|Hnz];
      [discriminate|].
    destruct ((nPowTargetTimespan p =? INT64_MIN)
              && (nPowTargetSpacing p =? -1)); [discriminate|].
    injection Hq as <-.
    rewrite <- Z.quot_abs by assumption.
    rewrite Z.quot_div_nonneg by lia.
    apply Z.div_le_upper_bound; [lia|].
    pose proof (Z.abs_nonneg (nPowTargetTimespan p)). nia.
Qed.

Lemma DifficultyAdjustmentInterval_representable_witness :
  is_int64 (nPowTargetTimespan
              (@sampleParams coin_1e8 INT64_MIN 1 false 0 (-1)))
  /\ is_int64 (nPowTargetSpacing
                 (@sampleParams coin_1e8 INT64_MIN 1 false 0 (-1)))
  /\ DifficultyAdjustmentInterval
       (@sampleParams coin_1e8 INT64_MIN 1 false 0 (-1)) = Some INT64_MIN
  /\ is_int64 INT64_MIN
  /\ Z.abs INT64_MIN <= Z.abs INT64_MIN.
Proof.
  assert (Hts : is_int64 (nPowTargetTimespan
                  (@sampleParams coin_1e8 INT64_MIN 1 false 0 (-1))))
    by (unfold is_int64, INT64_MIN, INT64_MAX; simpl; lia).
  assert (Hsp : is_int64 (nPowTargetSpacing
                  (@sampleParams coin_1e8 INT64_MIN 1 false 0 (-1))))
    by (unfold is_int64, INT64_MIN, INT64_MAX; simpl; lia).
  assert (Hq : DifficultyAdjustmentInterval
                 (@sampleParams coin_1e8 INT64_MIN 1 false 0 (-1))
               = Some INT64_MIN)
    by reflexivity.
  split; [exact Hts|]. split; [exact Hsp|]. split; [exact Hq|].
  exact (DifficultyAdjustmentInterval_representable _ _ Hts Hsp Hq).
Defined.

(** ** [Params::AllowMinDifficultyBlocks]: monotone in time *)

(** X11. Once minimum-difficulty blocks are allowed at some block time they
    are allowed at every later one; and they are allowed only when the flag
    is set and the time lies strictly after [nMinDifficultySince]. *)
Theorem AllowMinDifficultyBlocks_stays_allowed (p : Params) (t1 t2 : Z) :
  AllowMinDifficultyBlocks p t1 = true ->
  t1 <= t2 ->
  AllowMinDifficultyBlocks p t2 = true
  /\ fPowAllowMinDifficultyBlocks p = true
  /\ nMinDifficultySince p < t1.
Proof.
  unfold AllowMinDifficultyBlocks.
  destruct (fPowAllowMinDifficultyBlocks p); simpl; [|discriminate].
  rewrite !Z.gtb_ltb, !Z.ltb_lt. intros Hlt Hle.
  split; [lia|]. split; [reflexivity|exact Hlt].
Qed.

Lemma AllowMinDifficultyBlocks_stays_allowed_witness :
  AllowMinDifficultyBlocks
    (@sampleParams coin_1e8 1209600 600 true 1500000000 (-1)) 1500000001
  = true
  /\ 1500000001 <= INT64_MAX
  /\ AllowMinDifficultyBlocks
       (@sampleParams coin_1e8 1209600 600 true 1500000000 (-1)) INT64_MAX
     = true
  /\ fPowAllowMinDifficultyBlocks
       (@sampleParams coin_1e8 1209600 600 true 1500000000 (-1)) = true
  /\ nMinDifficultySince
       (@sampleParams coin_1e8 1209600 600 true 1500000000 (-1))
     < 1500000001.
Proof.
  assert (Ht : AllowMinDifficultyBlocks
                 (@sampleParams coin_1e8 1209600 600 true 1500000000 (-1))
                 1500000001 = true)
    by reflexivity.
  assert (Hle : 1500000001 <= INT64_MAX) by (unfold INT64_MAX; lia).
  split; [exact Ht|]. split; [exact Hle|].
  exact (AllowMinDifficultyBlocks_stays_allowed _ _ _ Ht Hle).
Defined.

(** ** [Params::AllowLegacyBlocks]: the whole [unsigned] range *)

(** X12. For a cutoff between 0 and [INT_MAX] and any height of type
    [unsigned], legacy blocks are allowed exactly when the height is below
    the cutoff or is at least 2^31 (where the cast makes it negative). *)
Theorem AllowLegacyBlocks_unsigned_range (p : Params) (h : Z) :
  0 <= nLegacyBlocksBefore p <= INT_MAX ->
  is_unsigned h ->
  (AllowLegacyBlocks p h = true <-> h < nLegacyBlocksBefore p \/ 2 ^ 31 <= h).
Proof.
  intros Hcut Hu.
  rewrite AllowLegacyBlocks_signed_comparison by lia.
  unfold is_unsigned in Hu. unfold INT_MAX in Hcut.
  destruct (Z_le_gt_dec h INT_MAX) as [Hlow|Hhigh].
  - rewrite to_int_low by lia. unfold INT_MAX in Hlow. lia.
  - rewrite to_int_high by lia. unfold INT_MAX, UINT_MODULUS in *. lia.
Qed.

Lemma AllowLegacyBlocks_unsigned_range_witness :
  0 <= nLegacyBlocksBefore (@sampleParams coin_1e8 1209600 600 false 0 100)
    <= INT_MAX
  /\ is_unsigned 4294967295
  /\ (AllowLegacyBlocks (@sampleParams coin_1e8 1209600 600 false 0 100)
        4294967295 = true
      <-> 4294967295
          < nLegacyBlocksBefore
              (@sampleParams coin_1e8 1209600 600 false 0 100)
          \/ 2 ^ 31 <= 4294967295).
Proof.
  assert (Hcut : 0 <= nLegacyBlocksBefore
                        (@sampleParams coin_1e8 1209600 600 false 0 100)
                 <= INT_MAX)
    by (simpl; unfold INT_MAX; lia).
  assert (Hu : is_unsigned 4294967295)
    by (unfold is_unsigned, UINT_MODULUS; lia).
  split; [exact Hcut|]. split; [exact Hu|].
  exact (AllowLegacyBlocks_unsigned_range _ _ Hcut Hu).
Defined.

(** X13. Up to height [INT_MAX] the permission is never regained: if legacy
    blocks are refused at a height, they are refused at every later height
    that is at most [INT_MAX]. *)
Theorem AllowLegacyBlocks_stays_refused (p : Params) (h1 h2 : Z) :
  0 <= h1 <= h2 ->
  h2 <= INT_MAX ->
  AllowLegacyBlocks p h1 = false ->
  AllowLegacyBlocks p h2 = false
  /\ 0 <= nLegacyBlocksBefore p <= h1.
Proof.
  intros Hh Hmax Hrefused.
  destruct (Z_lt_ge_dec (nLegacyBlocksBefore p) 0) as [Hneg|Hcut].
  - rewrite AllowLegacyBlocks_always in Hrefused by assumption.
    discriminate.
  - assert (Hge : ~ h1 < nLegacyBlocksBefore p).
    { intros Hlt.
      assert (Ht : AllowLegacyBlocks p h1 = true).
      { apply AllowLegacyBlocks_signed_comparison; [lia|].
        rewrite to_int_low by lia. exact Hlt. }
      rewrite Ht in Hrefused. discriminate. }
    split; [|lia].
    apply not_true_is_false. intros Ht.
    apply AllowLegacyBlocks_signed_comparison in Ht; [|lia].
    rewrite to_int_low in Ht by lia. lia.
Qed.

Lemma AllowLegacyBlocks_stays_refused_witness :
  0 <= 100 <= 2147483647
  /\ 2147483647 <= INT_MAX
  /\ AllowLegacyBlocks (@sampleParams coin_1e8 1209600 600 false 0 100) 100
     = false
  /\ AllowLegacyBlocks (@sampleParams coin_1e8 1209600 600 false 0 100)
       2147483647 = false
  /\ 0 <= nLegacyBlocksBefore
            (@sampleParams coin_1e8 1209600 600 false 0 100) <= 100.
Proof.
  assert (Hh : 0 <= 100 <= 2147483647) by lia.
  assert (Hmax : 2147483647 <= INT_MAX) by (unfold INT_MAX; lia).
  assert (Hr : AllowLegacyBlocks
                 (@sampleParams coin_1e8 1209600 600 false 0 100) 100
               = false)
    by reflexivity.
  split; [exact Hh|]. split; [exact Hmax|]. split; [exact Hr|].
  exact (AllowLegacyBlocks_stays_refused _ _ _ Hh Hmax Hr).
Defined.
